(** * Machine type checkers for scitypes

    A shallow embedding of [sktime/datatypes/_check.py]: the registry
    [check_dict] pooled from the per-scitype checker dictionaries, and the
    three exported operations [check_is], [check_raise] and [mtype].

    Python exceptions are results ([Raises]); every call of a registered
    checker is recorded in a call trace, so that statements such as
    "no checker is invoked" are about the embedded code itself. *)

From Stdlib Require Import String List Bool Arith Lia ZArith.
Import ListNotations.
Set Warnings "-register-all,-notation-for-abbreviation".
Local Open Scope string_scope.
Local Open Scope list_scope.

(** ** Python values, exceptions and results *)

(** The values that can reach the [mtype] argument of [check_is]. *)
Inductive pyval : Type :=
| PyNone
| PyInt (n : Z)
| PyStr (s : string)
| PyList (l : list pyval)
| PyTuple (l : list pyval).

(** [isinstance(x, str)] *)
Definition isinstance_str (x : pyval) : bool :=
  match x with PyStr _ => true | _ => false end.

(** Error messages: a checker reports a string or [None]; [check_is]
    reports one of those or the list of them. *)
Inductive Msg : Type :=
| MNone
| MStr (s : string)
| MList (l : list Msg).

(** The exception classes raised in the module, with their argument. *)
Inductive exn : Type :=
| ValueError (arg : Msg)
| TypeError (arg : Msg)
| IndexError (arg : Msg).

Inductive outcome (A : Type) : Type :=
| Returns (a : A)
| Raises (e : exn).
Arguments Returns {A} a.
Arguments Raises {A} e.

(** Keys of the registry: the pair [(mtype, scitype)]. *)
Definition Key : Type := (string * string)%type.

Definition key_eqb (k1 k2 : Key) : bool :=
  String.eqb (fst k1) (fst k2) && String.eqb (snd k1) (snd k2).

(** ** Computations: a trace of checker calls and an outcome *)

Module Py.

(** One entry per call [check_dict[key](obj, ...)]: the key whose checker
    ran. *)
Definition Call : Type := Key.

Definition M (A : Type) : Type := (list Call * outcome A)%type.

Definition pure {A} (a : A) : M A := ([], Returns a).

Definition throw {A} (e : exn) : M A := ([], Raises e).

Definition lift {A} (o : outcome A) : M A := ([], o).

Definition bind {A B} (c : M A) (k : A -> M B) : M B :=
  match c with
  | (t, Raises e) => (t, Raises e)
  | (t, Returns a) => let (t', r) := k a in (t ++ t', r)
  end.

(** Calling the checker registered under [key]; [r] is what it returns. *)
Definition invoke {A} (key : Call) (r : A) : M A := ([key], Returns r).

Fixpoint mapM {A B} (f : A -> M B) (l : list A) : M (list B) :=
  match l with
  | [] => pure []
  | x :: l' => bind (f x) (fun y => bind (mapM f l') (fun ys => pure (y :: ys)))
  end.

Definition trace {A} (c : M A) : list Call := fst c.
Definition result {A} (c : M A) : outcome A := snd c.

End Py.

Notation "x <- c ;; k" := (Py.bind c (fun x => k))
  (at level 61, c at next level, right associativity).

(** ** Python's insertion-ordered [dict], keyed by [(mtype, scitype)] *)

Module Dict.
Section Dict.
Variable V : Type.

Definition t : Type := list (Key * V).

(** [dict()] *)
Definition empty : t := [].

(** [d[k]], [None] standing for a missing key *)
Fixpoint get (d : t) (k : Key) : option V :=
  match d with
  | [] => None
  | (k', v) :: d' => if key_eqb k' k then Some v else get d' k
  end.

(** [d[k] = v]: an existing key keeps its position, a new one goes last *)
Fixpoint set (d : t) (k : Key) (v : V) : t :=
  match d with
  | [] => [(k, v)]
  | (k', v') :: d' =>
      if key_eqb k' k then (k', v) :: d' else (k', v') :: set d' k v
  end.

(** [d.update(other)] *)
Definition update (d other : t) : t :=
  fold_left (fun acc kv => set acc (fst kv) (snd kv)) other d.

(** [d.keys()] *)
Definition keys (d : t) : list Key := map fst d.

End Dict.
Arguments empty {V}.
Arguments get {V} d k.
Arguments set {V} d k v.
Arguments update {V} d other.
Arguments keys {V} d.
End Dict.

(** ** Checkers and their results *)

(** The metadata a successful check returns. *)
Record Metadata : Type := mkMetadata {
  is_univariate : bool;
  is_equally_spaced : bool
}.

(** What a checker, and [check_is], return: a boolean, or with
    [return_metadata] the triple [(valid, msg, metadata)]. *)
Definition vres (return_metadata : bool) : Type :=
  if return_metadata then (bool * Msg * option Metadata)%type else bool.

(** [res[0]] of the triple, [res] itself of the boolean (lines 96-99). *)
Definition check_passed {return_metadata : bool}
  : vres return_metadata -> bool :=
  match return_metadata with
  | true => fun res => fst (fst res)
  | false => fun res => res
  end.

(** The inner function [ret] of [check_is] (lines 69-73). *)
Definition ret (valid : bool) (msg : Msg) (metadata : option Metadata)
  (return_metadata : bool) : vres return_metadata :=
  match return_metadata with
  | true => (valid, msg, metadata)
  | false => valid
  end.

(** [msg.append(res[1])], done only when [return_metadata] (lines 103-104). *)
Definition append_msg {return_metadata : bool}
  : vres return_metadata -> list Msg -> list Msg :=
  match return_metadata with
  | true => fun res msg => msg ++ [snd (fst res)]
  | false => fun _ msg => msg
  end.

(** The strings of a list of values. *)
Definition strs (l : list pyval) : list string :=
  flat_map (fun x => match x with PyStr s => [s] | _ => [] end) l.

(** Lines 75-81: the [mtype] argument becomes a list of strings;
    [np.all] of the empty list is [True]. *)
Definition coerce_mtype (mtype : pyval) : outcome (list string) :=
  match mtype with
  | PyStr s => Returns [s]
  | PyList l =>
      if negb (forallb isinstance_str l) then
        Raises (ValueError (MStr "list must be a string or list of strings"))
      else Returns (strs l)
  | _ => Raises (ValueError (MStr "mtype must be a string or list of strings"))
  end.

(** An argument that is neither a string nor a list of strings. *)
Definition malformed (a : pyval) : Prop :=
  (forall s, a <> PyStr s) /\ (forall l, a <> PyList (map PyStr l)).

(** Lines 106-107: a single recorded message stands for the list. *)
Definition final_msg (msg : list Msg) : Msg :=
  if Nat.eqb (length msg) 1 then nth 0 msg MNone else MList msg.

(** Number of [True] entries: [np.sum] of a boolean array. *)
Definition np_sum (l : list bool) : nat := length (filter (fun b => b) l).

(** A checker: [(obj, return_metadata, var_name)] to a result whose shape
    follows [return_metadata].  [Obj] is the type of the Python objects other
    than [None]; an [obj] argument is an [option Obj], with [None] for
    Python's [None]. *)
Definition checker (Obj : Type) : Type :=
  option Obj -> forall return_metadata : bool, string -> vres return_metadata.

(** What the module imports and does not define: the two checker
    dictionaries, as the sequences of their items, and [mtype_to_scitype],
    which returns a scitype or raises.  [format_list] is how an f-string
    renders a list of mtype strings. *)
Class Imports : Type := mkImports {
  Obj : Type;
  check_dict_Series : Dict.t (checker Obj);
  check_dict_Panel : Dict.t (checker Obj);
  mtype_to_scitype : string -> outcome string;
  format_list : list string -> string
}.

Section Check.

Context {I : Imports}.

(** Lines 30-32. *)
Definition check_dict : Dict.t (checker Obj) :=
  Dict.update (Dict.update Dict.empty check_dict_Series) check_dict_Panel.

(** Lines 88-89: the scitype in force for [m], the one already set or
    the one looked up. *)
Definition category_of (scitype : option string) (m : string)
  : outcome string :=
  match scitype with
  | None => mtype_to_scitype m
  | Some s => Returns s
  end.

(** Line 92. *)
Definition no_check_defined (m scitype : string) : exn :=
  TypeError (MStr ("no check defined for mtype " ++ m
                   ++ ", scitype " ++ scitype)).

(** The loop of lines 87-104 and the return of lines 106-109; [scitype]
    and [msg] are the local variables the loop reassigns. *)
Fixpoint check_loop (return_metadata : bool) (obj : option Obj)
  (var_name : string) (mtype : list string) (scitype : option string)
  (msg : list Msg) {struct mtype} : Py.M (vres return_metadata) :=
  match mtype with
  | [] =>
      Py.pure (ret false (final_msg msg) None return_metadata)
  | m :: rest =>
      scitype' <- Py.lift (category_of scitype m) ;;
      match Dict.get check_dict (m, scitype') with
      | None => Py.throw (no_check_defined m scitype')
      | Some chk =>
          res <- Py.invoke (m, scitype') (chk obj return_metadata var_name) ;;
          if check_passed res then Py.pure res
          else check_loop return_metadata obj var_name rest (Some scitype')
                 (append_msg res msg)
      end
  end.

(** Lines 35-109. *)
Definition check_is (obj : option Obj) (mtype : pyval)
  (scitype : option string) (return_metadata : bool) (var_name : string)
  : Py.M (vres return_metadata) :=
  mtype' <- Py.lift (coerce_mtype mtype) ;;
  check_loop return_metadata obj var_name mtype' scitype [].

(** Lines 135-147. *)
Definition check_raise (obj : option Obj) (mtype : pyval)
  (scitype : option string) (var_name : string) : Py.M bool :=
  res <- check_is obj mtype scitype true var_name ;;
  if fst (fst res) then Py.pure true
  else Py.throw (TypeError (snd (fst res))).

(** Line 175: the mtypes registered under a scitype, in registry order. *)
Definition registered_mtypes (as_scitype : string) : list string :=
  map fst (filter (fun x => String.eqb (snd x) as_scitype)
             (Dict.keys check_dict)).

(** Lines 167-187.  With [as_scitype] left at its default [None], the
    concatenation of line 173 is what raises. *)
Definition mtype (obj : option Obj) (as_scitype : option string)
  : Py.M (option string) :=
  match obj with
  | None => Py.pure None
  | Some _ =>
      let valid_as_scitypes :=
        nodup string_dec (map snd (Dict.keys check_dict)) in
      match as_scitype with
      | None =>
          Py.throw (TypeError (MStr
            "unsupported operand type(s) for +: 'NoneType' and 'str'"))
      | Some s =>
          if negb (existsb (String.eqb s) valid_as_scitypes) then
            Py.throw (TypeError (MStr (s ++ " is not a supported scitype")))
          else
            let mtypes := registered_mtypes s in
            is_mtype <- Py.mapM (fun m =>
                          check_is obj (PyStr m) (Some s) false "obj")
                          mtypes ;;
            let res := map fst (filter snd (combine mtypes is_mtype)) in
            if Nat.ltb 1 (np_sum is_mtype) then
              Py.throw (TypeError (MStr
                ("Error in check_is, more than one mtype identified: "
                 ++ format_list res)))
            else if Nat.ltb (np_sum is_mtype) 1 then
              Py.throw (TypeError (MStr ""))
            else
              match res with
              | r :: _ => Py.pure (Some r)
              | [] => Py.throw (IndexError (MStr "list index out of range"))
              end
      end
  end.

(** *** The behaviour the docstring of [check_is] describes

    "if inferred from mtype, list elements of mtype need not have same
    scitype" (lines 45 and 120): an omitted scitype is looked up for every
    mtype on its own, and stays omitted for the next one. *)
Fixpoint check_loop_documented (return_metadata : bool) (obj : option Obj)
  (var_name : string) (mtype : list string) (scitype : option string)
  (msg : list Msg) {struct mtype} : Py.M (vres return_metadata) :=
  match mtype with
  | [] =>
      Py.pure (ret false (final_msg msg) None return_metadata)
  | m :: rest =>
      scitype' <- Py.lift (category_of scitype m) ;;
      match Dict.get check_dict (m, scitype') with
      | None => Py.throw (no_check_defined m scitype')
      | Some chk =>
          res <- Py.invoke (m, scitype') (chk obj return_metadata var_name) ;;
          if check_passed res then Py.pure res
          else check_loop_documented return_metadata obj var_name rest
                 scitype (append_msg res msg)
      end
  end.

Definition check_is_documented (obj : option Obj) (mtype : pyval)
  (scitype : option string) (return_metadata : bool) (var_name : string)
  : Py.M (vres return_metadata) :=
  mtype' <- Py.lift (coerce_mtype mtype) ;;
  check_loop_documented return_metadata obj var_name mtype' scitype [].

(** *** Vocabulary of the statements *)

(** [scitype] is the second component of some key of the registry. *)
Definition registered_scitype (scitype : string) : Prop :=
  In scitype (map snd (Dict.keys check_dict)).

(** [check_is(obj, m, scitype)] returns [True]. *)
Definition is_valid_as (obj : option Obj) (m scitype : string) : bool :=
  match Py.result (check_is obj (PyStr m) (Some scitype) false "obj") with
  | Returns true => true
  | _ => false
  end.

(** The registered mtypes of a scitype that [obj] is valid as. *)
Definition valid_mtypes (obj : option Obj) (scitype : string)
  : list string :=
  filter (fun m => is_valid_as obj m scitype) (registered_mtypes scitype).

(** What [mtype] does with an object, by the number of mtypes of the
    scitype it is valid as: every registered mtype of the scitype is
    checked; more than one valid is an error naming them, none is an error
    with the empty message, exactly one is returned. *)
Definition mtype_dispatch (obj : option Obj) (scitype : string) : Prop :=
  Py.trace (mtype obj (Some scitype))
    = map (fun m => (m, scitype)) (registered_mtypes scitype)
  /\ (1 < length (valid_mtypes obj scitype) ->
      Py.result (mtype obj (Some scitype))
        = Raises (TypeError (MStr
            ("Error in check_is, more than one mtype identified: "
             ++ format_list (valid_mtypes obj scitype)))))
  /\ (valid_mtypes obj scitype = [] ->
      Py.result (mtype obj (Some scitype)) = Raises (TypeError (MStr "")))
  /\ (forall F, valid_mtypes obj scitype = [F] ->
      Py.result (mtype obj (Some scitype)) = Returns (Some F)).

(** An object valid as [F], and as no other mtype registered for the
    scitype, has [F] inferred. *)
Definition mtype_roundtrip (obj : option Obj) (F scitype : string) : Prop :=
  is_valid_as obj F scitype = true ->
  (forall F', In F' (registered_mtypes scitype) -> F' <> F ->
              is_valid_as obj F' scitype = false) ->
  Py.result (mtype obj (Some scitype)) = Returns (Some F).

End Check.

(** ** A small registry in the shape of sktime's *)

Module Example.

(** Sample objects: a univariate series, a table of several series, a
    table with a single column, a nested panel, and a number. *)
Inductive sample : Type :=
| univariate_series
| multivariate_frame
| one_column_frame
| nested_panel
| scalar.

(** A checker that accepts by a predicate on the object and reports
    [var_name] in its message. *)
Definition check_with (accepts : option sample -> bool) (md : Metadata)
  (expected : string) : checker sample :=
  fun obj return_metadata var_name =>
    match return_metadata return vres return_metadata with
    | true =>
        if accepts obj then (true, MNone, Some md)
        else (false, MStr (var_name ++ " must be a " ++ expected), None)
    | false => accepts obj
    end.

Definition is_pd_Series (obj : option sample) : bool :=
  match obj with Some univariate_series => true | _ => false end.

Definition is_pd_DataFrame (obj : option sample) : bool :=
  match obj with
  | Some multivariate_frame | Some one_column_frame => true
  | _ => false
  end.

Definition is_nested_univ (obj : option sample) : bool :=
  match obj with Some nested_panel => true | _ => false end.

Definition Series_checkers : Dict.t (checker sample) :=
  [ (("pd.Series", "Series"),
     check_with is_pd_Series (mkMetadata true true) "pandas.Series");
    (("pd.DataFrame", "Series"),
     check_with is_pd_DataFrame (mkMetadata false true) "pandas.DataFrame") ].

Definition Panel_checkers : Dict.t (checker sample) :=
  [ (("nested_univ", "Panel"),
     check_with is_nested_univ (mkMetadata true true) "nested pd.DataFrame") ].

(** The mtype register read as a table; an unknown mtype raises. *)
Definition scitype_of_mtype (m : string) : outcome string :=
  match find (fun k => String.eqb (fst k) m)
          (Dict.keys (Series_checkers ++ Panel_checkers)) with
  | Some k => Returns (snd k)
  | None => Raises (ValueError (MStr (m ++ " is not a supported mtype")))
  end.

Definition repr_list (l : list string) : string :=
  ("[" ++ String.concat ", " (map (fun m => "'" ++ m ++ "'") l) ++ "]")%string.

(** A defective Series dictionary: two of its checkers accept a
    single-column table. *)
Definition Series_checkers_overlapping : Dict.t (checker sample) :=
  [ (("pd.Series", "Series"),
     check_with (fun obj => is_pd_Series obj || is_pd_DataFrame obj)
       (mkMetadata true true) "pandas.Series");
    (("pd.DataFrame", "Series"),
     check_with is_pd_DataFrame (mkMetadata false true) "pandas.DataFrame") ].

(** A Series dictionary whose single checker accepts every object,
    [None] included. *)
Definition Series_checkers_lenient : Dict.t (checker sample) :=
  [ (("any", "Series"),
     check_with (fun _ => true) (mkMetadata true true) "object") ].

(** The imports with these dictionaries. *)
Definition sktime : Imports :=
  mkImports sample Series_checkers Panel_checkers scitype_of_mtype repr_list.

Definition sktime_overlapping : Imports :=
  mkImports sample Series_checkers_overlapping Panel_checkers
    scitype_of_mtype repr_list.

Definition sktime_lenient : Imports :=
  mkImports sample Series_checkers_lenient Panel_checkers
    scitype_of_mtype repr_list.

End Example.

(** ** The monad and the dictionary *)

Lemma bind_lift_Returns {A B} (a : A) (k : A -> Py.M B) :
  Py.bind (Py.lift (Returns a)) k = k a.
Proof. unfold Py.bind, Py.lift. destruct (k a); reflexivity. Qed.

Lemma bind_lift_Raises {A B} (e : exn) (k : A -> Py.M B) :
  Py.bind (Py.lift (Raises e)) k = ([], Raises e).
Proof. reflexivity. Qed.

Lemma bind_invoke {A B} (key : Key) (r : A) (k : A -> Py.M B) :
  Py.bind (Py.invoke key r) k = (key :: fst (k r), snd (k r)).
Proof. unfold Py.bind, Py.invoke. destruct (k r); reflexivity. Qed.

Lemma key_eqb_eq (k1 k2 : Key) : key_eqb k1 k2 = true <-> k1 = k2.
Proof.
  destruct k1 as [a1 b1], k2 as [a2 b2]; unfold key_eqb; simpl.
  rewrite andb_true_iff, !String.eqb_eq.
  split; [intros [-> ->]; reflexivity | intros H; inversion H; auto].
Qed.

Lemma key_eqb_neq (k1 k2 : Key) : key_eqb k1 k2 = false <-> k1 <> k2.
Proof.
  rewrite <- key_eqb_eq. destruct (key_eqb k1 k2); split; congruence.
Qed.

Section DictFacts.
Variable V : Type.
Implicit Types (d : Dict.t V) (k : Key) (v : V).

Lemma get_Some_in_keys d k v :
  Dict.get d k = Some v -> In k (Dict.keys d).
Proof.
  induction d as [|[k' v'] d IH]; simpl; [discriminate|].
  destruct (key_eqb k' k) eqn:E.
  - apply key_eqb_eq in E. auto.
  - auto.
Qed.

Lemma in_keys_get d k :
  In k (Dict.keys d) -> exists v, Dict.get d k = Some v.
Proof.
  induction d as [|[k' v'] d IH]; simpl; [tauto|].
  intros [->|H].
  - rewrite (proj2 (key_eqb_eq k k) eq_refl). eauto.
  - destruct (key_eqb k' k); eauto.
Qed.

Lemma get_None_not_in_keys d k :
  Dict.get d k = None <-> ~ In k (Dict.keys d).
Proof.
  split.
  - intros H Hin. apply in_keys_get in Hin as [v Hv]. congruence.
  - intros H. destruct (Dict.get d k) eqn:E; [|reflexivity].
    apply get_Some_in_keys in E. contradiction.
Qed.

Lemma in_keys_set d k v k0 :
  In k0 (Dict.keys (Dict.set d k v)) -> k0 = k \/ In k0 (Dict.keys d).
Proof.
  induction d as [|[k' v'] d IH]; simpl.
  - intros [<-|[]]; auto.
  - destruct (key_eqb k' k); simpl; intuition.
Qed.

Lemma NoDup_keys_set d k v :
  NoDup (Dict.keys d) -> NoDup (Dict.keys (Dict.set d k v)).
Proof.
  induction d as [|[k' v'] d IH]; simpl; intros H.
  - constructor; [intros []|constructor].
  - inversion H as [|? ? Hnin Hnd]; subst.
    destruct (key_eqb k' k) eqn:E; simpl.
    + constructor; assumption.
    + constructor; [|auto].
      intros Hin. apply in_keys_set in Hin as [->|Hin]; [|contradiction].
      apply key_eqb_neq in E. congruence.
Qed.

Lemma NoDup_keys_update other : forall d,
  NoDup (Dict.keys d) -> NoDup (Dict.keys (Dict.update d other)).
Proof.
  unfold Dict.update.
  induction other as [|[k v] other IH]; simpl; intros d H; [assumption|].
  apply IH, NoDup_keys_set, H.
Qed.

End DictFacts.

(** ** Lists *)

Lemma forallb_isinstance_str (l : list pyval) :
  forallb isinstance_str l = true -> l = map PyStr (strs l).
Proof.
  induction l as [|x l IH]; simpl; [reflexivity|].
  rewrite andb_true_iff. intros [Hx Hl].
  destruct x; try discriminate. simpl. f_equal. auto.
Qed.

Lemma strs_map_PyStr (l : list string) : strs (map PyStr l) = l.
Proof. induction l as [|x l IH]; simpl; congruence. Qed.

Lemma forallb_map_PyStr (l : list string) :
  forallb isinstance_str (map PyStr l) = true.
Proof. induction l; simpl; auto. Qed.

Lemma coerce_mtype_list (l : list string) :
  coerce_mtype (PyList (map PyStr l)) = Returns l.
Proof.
  unfold coerce_mtype. rewrite forallb_map_PyStr, strs_map_PyStr. reflexivity.
Qed.

Lemma final_msg_cases (msg : list Msg) :
  final_msg msg = match msg with [m] => m | _ => MList msg end.
Proof. destruct msg as [|m [|m' msg]]; reflexivity. Qed.

Lemma filter_combine_map {A} (f : A -> bool) (l : list A) :
  map fst (filter snd (combine l (map f l))) = filter f l.
Proof.
  induction l as [|x l IH]; simpl; [reflexivity|].
  destruct (f x); simpl; congruence.
Qed.

Lemma np_sum_map {A} (f : A -> bool) (l : list A) :
  np_sum (map f l) = length (filter f l).
Proof.
  unfold np_sum. induction l as [|x l IH]; simpl; [reflexivity|].
  destruct (f x); simpl; congruence.
Qed.

Lemma filter_unique {A} (f : A -> bool) (x : A) (l : list A) :
  NoDup l -> In x l -> f x = true ->
  (forall y, In y l -> y <> x -> f y = false) ->
  filter f l = [x].
Proof.
  induction l as [|a l IH]; simpl; intros Hnd Hin Hx Hrest; [contradiction|].
  inversion Hnd as [|? ? Hnin Hnd']; subst.
  destruct Hin as [->|Hin].
  - rewrite Hx. f_equal.
    clear IH Hnd Hnd'. induction l as [|b l IHl]; simpl; [reflexivity|].
    rewrite (Hrest b); [|simpl; auto|intros ->; apply Hnin; simpl; auto].
    apply IHl.
    + intros H; apply Hnin; simpl; auto.
    + intros y [->|Hy] Hne; apply Hrest; simpl; auto.
  - rewrite (Hrest a); [|auto|intros ->; contradiction].
    apply IH; auto.
Qed.

Lemma NoDup_fst_filter_snd (s : string) (l : list Key) :
  NoDup l ->
  NoDup (map fst (filter (fun x => String.eqb (snd x) s) l)).
Proof.
  induction l as [|[a b] l IH]; simpl; intros H; [constructor|].
  inversion H as [|? ? Hnin Hnd]; subst.
  destruct (String.eqb b s) eqn:E; simpl; [|auto].
  constructor; [|auto].
  intros Hin. apply in_map_iff in Hin as [[a' b'] [Ha Hf]].
  apply filter_In in Hf as [Hl Hb]. simpl in *. subst a'.
  apply String.eqb_eq in E, Hb. subst. contradiction.
Qed.

(** ** The operations *)

Section Properties.
Context {I : Imports}.

Implicit Types (obj : option Obj) (rm : bool) (var : string)
  (sci : option string) (msg : list Msg) (m c : string).

Lemma check_dict_NoDup : NoDup (Dict.keys check_dict).
Proof.
  unfold check_dict. apply NoDup_keys_update, NoDup_keys_update. constructor.
Qed.

(** *** One round of the loop *)

Lemma check_loop_nil rm obj var sci msg :
  check_loop rm obj var [] sci msg
  = ([], Returns (ret false (final_msg msg) None rm)).
Proof. reflexivity. Qed.

Lemma check_loop_cons rm obj var m rest sci msg :
  check_loop rm obj var (m :: rest) sci msg
  = match category_of sci m with
    | Raises e => ([], Raises e)
    | Returns c =>
        match Dict.get check_dict (m, c) with
        | None => ([], Raises (no_check_defined m c))
        | Some chk =>
            if check_passed (chk obj rm var)
            then ([(m, c)], Returns (chk obj rm var))
            else
              let r := check_loop rm obj var rest (Some c)
                         (append_msg (chk obj rm var) msg) in
              ((m, c) :: fst r, snd r)
        end
    end.
Proof.
  cbn [check_loop].
  destruct (category_of sci m) as [c|e]; [|reflexivity].
  rewrite bind_lift_Returns.
  destruct (Dict.get check_dict (m, c)) as [chk|]; [|reflexivity].
  rewrite bind_invoke.
  destruct (check_passed (chk obj rm var)); reflexivity.
Qed.

Lemma check_is_unfold obj a sci rm var :
  check_is obj a sci rm var
  = match coerce_mtype a with
    | Raises e => ([], Raises e)
    | Returns ms => check_loop rm obj var ms sci []
    end.
Proof.
  unfold check_is. destruct (coerce_mtype a); [|reflexivity].
  rewrite bind_lift_Returns. reflexivity.
Qed.

(** *** The loop stops at the first checker that accepts *)

Lemma check_loop_first_success rm obj var c m chk post :
  Dict.get check_dict (m, c) = Some chk ->
  check_passed (chk obj rm var) = true ->
  forall pre sci msg,
    category_of sci (hd m pre) = Returns c ->
    Forall (fun x => exists chk',
              Dict.get check_dict (x, c) = Some chk'
              /\ check_passed (chk' obj rm var) = false) pre ->
    check_loop rm obj var (pre ++ m :: post) sci msg
    = (map (fun x => (x, c)) (pre ++ [m]), Returns (chk obj rm var)).
Proof.
  intros Hget Hpass pre.
  induction pre as [|x pre IH]; intros sci msg Hcat Hpre; simpl in Hcat.
  - simpl app. rewrite check_loop_cons, Hcat, Hget, Hpass. reflexivity.
  - inversion Hpre as [|? ? (chk' & Hg & Hf) Hpre']; subst.
    rewrite <- app_comm_cons, check_loop_cons, Hcat, Hg, Hf.
    cbv zeta. rewrite IH; [reflexivity| |assumption].
    destruct pre; reflexivity.
Qed.

(** *** The loop over checkers that all reject, with metadata *)

Lemma check_loop_all_fail obj var c : forall ms msgs sci acc,
  (forall m, hd_error ms = Some m -> category_of sci m = Returns c) ->
  Forall2 (fun x mg => exists chk md,
             Dict.get check_dict (x, c) = Some chk
             /\ chk obj true var = (false, mg, md)) ms msgs ->
  check_loop true obj var ms sci acc
  = (map (fun x => (x, c)) ms,
     Returns (false, final_msg (acc ++ msgs), None)).
Proof.
  intros ms msgs sci acc Hcat H. revert sci acc Hcat.
  induction H as [|x mg ms msgs (chk & md & Hg & Hr) _ IH];
    intros sci acc Hcat.
  - rewrite check_loop_nil, app_nil_r. reflexivity.
  - rewrite check_loop_cons, (Hcat x eq_refl), Hg, Hr.
    cbn [check_passed fst snd append_msg]. cbv zeta.
    rewrite IH; [|intros; reflexivity].
    rewrite <- app_assoc. reflexivity.
Qed.

(** *** When the loop raises, and when it cannot *)

Lemma check_loop_raises rm obj var e : forall ms sci msg,
  Py.result (check_loop rm obj var ms sci msg) = Raises e ->
  (exists m, In m ms /\ category_of sci m = Raises e)
  \/ (exists m c, In m ms /\ Dict.get check_dict (m, c) = None
                  /\ e = no_check_defined m c).
Proof.
  induction ms as [|m ms IH]; intros sci msg H.
  - rewrite check_loop_nil in H. discriminate.
  - rewrite check_loop_cons in H.
    destruct (category_of sci m) as [c|e'] eqn:Hc.
    + destruct (Dict.get check_dict (m, c)) as [chk|] eqn:Hg.
      * destruct (check_passed (chk obj rm var)); [discriminate|].
        cbv zeta in H. unfold Py.result in H. simpl in H.
        apply IH in H as [(m' & Hin & Hm')|(m' & c' & Hin & Hg' & ->)].
        -- discriminate.
        -- right. exists m', c'. simpl; auto.
      * unfold Py.result in H. simpl in H. inversion H; subst.
        right. exists m, c. simpl; auto.
    + unfold Py.result in H. simpl in H. inversion H; subst.
      left. exists m. simpl; auto.
Qed.

Lemma check_loop_returns rm obj var c : forall ms sci msg,
  (forall m, hd_error ms = Some m -> category_of sci m = Returns c) ->
  Forall (fun m => Dict.get check_dict (m, c) <> None) ms ->
  exists r,
    Py.result (check_loop rm obj var ms sci msg) = Returns r
    /\ (Forall (fun m => forall chk, Dict.get check_dict (m, c) = Some chk ->
                         check_passed (chk obj rm var) = false) ms ->
        check_passed r = false).
Proof.
  induction ms as [|m ms IH]; intros sci msg Hcat Hreg.
  - rewrite check_loop_nil. eexists; split; [reflexivity|].
    intros _. destruct rm; reflexivity.
  - inversion Hreg as [|? ? Hm Hreg']; subst.
    rewrite check_loop_cons, (Hcat m eq_refl).
    destruct (Dict.get check_dict (m, c)) as [chk|] eqn:Hg; [|congruence].
    destruct (check_passed (chk obj rm var)) eqn:Hp.
    + eexists; split; [reflexivity|].
      intros Hall. inversion Hall as [|? ? Hrej _]; subst.
      rewrite (Hrej chk Hg) in Hp. discriminate.
    + destruct (IH (Some c) (append_msg (chk obj rm var) msg))
        as (r & Hr & Hfalse); [intros; reflexivity|assumption|].
      exists r; split; [exact Hr|].
      intros Hall. inversion Hall; subst. auto.
Qed.

(** *** The [mtype] argument *)

Lemma coerce_mtype_malformed a :
  malformed a -> exists arg : Msg, coerce_mtype a = Raises (ValueError arg).
Proof.
  intros [Hs Hl]. destruct a as [| |s|l|]; simpl; eauto.
  - exfalso. apply (Hs s). reflexivity.
  - destruct (forallb isinstance_str l) eqn:E; simpl; eauto.
    exfalso. apply (Hl (strs l)). f_equal.
    apply forallb_isinstance_str, E.
Qed.

Lemma coerce_mtype_raises a e :
  coerce_mtype a = Raises e -> malformed a /\ exists arg : Msg, e = ValueError arg.
Proof.
  unfold malformed.
  destruct a as [| |s|l|]; simpl; intros H;
    try (inversion H; subst; repeat split; eauto; discriminate).
  destruct (forallb isinstance_str l) eqn:E; simpl in H; inversion H; subst.
  repeat split; eauto; [discriminate|].
  intros l' Hl'. inversion Hl'; subst.
  rewrite forallb_map_PyStr in E. discriminate.
Qed.

(** *** One mtype, boolean mode: the call [mtype] makes per candidate *)

Lemma check_is_single obj m c var :
  check_is obj (PyStr m) (Some c) false var
  = match Dict.get check_dict (m, c) with
    | None => ([], Raises (no_check_defined m c))
    | Some chk => ([(m, c)], Returns (chk obj false var))
    end.
Proof.
  rewrite check_is_unfold. cbn [coerce_mtype].
  rewrite check_loop_cons. cbn [category_of].
  destruct (Dict.get check_dict (m, c)) as [chk|]; [|reflexivity].
  cbn [check_passed]. destruct (chk obj false var) eqn:E; [reflexivity|].
  cbv zeta. rewrite check_loop_nil. reflexivity.
Qed.

Lemma in_registered m c :
  In m (registered_mtypes c) <-> In (m, c) (Dict.keys check_dict).
Proof.
  unfold registered_mtypes. rewrite in_map_iff. split.
  - intros [[a b] [Ha Hf]]. apply filter_In in Hf as [Hin Hb].
    simpl in *. apply String.eqb_eq in Hb. subst. exact Hin.
  - intros H. exists (m, c). split; [reflexivity|].
    apply filter_In. split; [exact H|]. apply String.eqb_refl.
Qed.

Lemma NoDup_registered c : NoDup (registered_mtypes c).
Proof. apply NoDup_fst_filter_snd, check_dict_NoDup. Qed.

Lemma valid_as_checker obj m c chk :
  Dict.get check_dict (m, c) = Some chk ->
  is_valid_as obj m c = chk obj false "obj".
Proof.
  intros H. unfold is_valid_as. rewrite check_is_single, H.
  unfold Py.result. simpl. destruct (chk obj false "obj"); reflexivity.
Qed.

Lemma valid_as_registered obj m c :
  is_valid_as obj m c = true -> In m (registered_mtypes c).
Proof.
  unfold is_valid_as. rewrite check_is_single.
  destruct (Dict.get check_dict (m, c)) as [chk|] eqn:H; [|discriminate].
  intros _. apply in_registered. eapply get_Some_in_keys, H.
Qed.

Lemma mapM_check_is obj c : forall l,
  (forall m, In m l -> In m (registered_mtypes c)) ->
  Py.mapM (fun m => check_is obj (PyStr m) (Some c) false "obj") l
  = (map (fun m => (m, c)) l, Returns (map (fun m => is_valid_as obj m c) l)).
Proof.
  induction l as [|m l IH]; intros Hl; [reflexivity|].
  cbn [Py.mapM map].
  destruct (in_keys_get _ check_dict (m, c)) as [chk Hchk].
  { apply in_registered, Hl. simpl; auto. }
  rewrite IH by (intros; apply Hl; simpl; auto).
  rewrite (valid_as_checker _ _ _ _ Hchk), check_is_single, Hchk.
  unfold Py.bind, Py.pure. cbn [app]. rewrite app_nil_r. reflexivity.
Qed.

(** *** [mtype] of an object that is not [None] *)

Lemma mtype_Some (o : Obj) c :
  registered_scitype c ->
  mtype (Some o) (Some c)
  = (map (fun m => (m, c)) (registered_mtypes c),
     match valid_mtypes (Some o) c with
     | [] => Raises (TypeError (MStr ""))
     | [F] => Returns (Some F)
     | l => Raises (TypeError (MStr
              ("Error in check_is, more than one mtype identified: "
               ++ format_list l)))
     end).
Proof.
  intros Hreg. unfold mtype.
  assert (E : existsb (String.eqb c)
                (nodup string_dec (map snd (Dict.keys check_dict))) = true).
  { apply existsb_exists. exists c. split; [|apply String.eqb_refl].
    apply nodup_In, Hreg. }
  rewrite E. cbn [negb].
  rewrite mapM_check_is by auto.
  unfold Py.bind.
  rewrite filter_combine_map, np_sum_map.
  fold (valid_mtypes (Some o) c).
  destruct (valid_mtypes (Some o) c) as [|F [|F' l]]; simpl;
    rewrite ?app_nil_r; reflexivity.
Qed.

Lemma mtype_unregistered (o : Obj) c :
  ~ registered_scitype c ->
  mtype (Some o) (Some c)
  = ([], Raises (TypeError (MStr (c ++ " is not a supported scitype")))).
Proof.
  intros Hreg. unfold mtype.
  assert (E : existsb (String.eqb c)
                (nodup string_dec (map snd (Dict.keys check_dict))) = false).
  { destruct (existsb _ _) eqn:E; [|reflexivity].
    apply existsb_exists in E as [x [Hx Hc]].
    apply String.eqb_eq in Hc. subst x. apply nodup_In in Hx.
    contradiction. }
  rewrite E. reflexivity.
Qed.

(** *** The documented loop and the loop of the code *)

(** With the scitype given they are the same loop; they can differ only
    when it is omitted and looked up. *)
Lemma check_loop_documented_given rm obj var c : forall ms msg,
  check_loop_documented rm obj var ms (Some c) msg
  = check_loop rm obj var ms (Some c) msg.
Proof.
  induction ms as [|m ms IH]; intros msg; [reflexivity|].
  cbn [check_loop check_loop_documented category_of].
  rewrite !bind_lift_Returns.
  destruct (Dict.get check_dict (m, c)) as [chk|]; [|reflexivity].
  rewrite !bind_invoke.
  destruct (check_passed (chk obj rm var)); [reflexivity|].
  rewrite IH. reflexivity.
Qed.

Lemma check_is_documented_given obj a c rm var :
  check_is_documented obj a (Some c) rm var = check_is obj a (Some c) rm var.
Proof.
  unfold check_is_documented, check_is.
  destruct (coerce_mtype a) as [ms|e]; [|reflexivity].
  rewrite !bind_lift_Returns. apply check_loop_documented_given.
Qed.

(** With the scitype omitted, the scitype looked up for the first mtype is
    the one the second mtype is tested with, whatever [mtype_to_scitype]
    says of the second. *)
Lemma check_is_scitype_of_first obj rm var m1 m2 c1 chk1 :
  mtype_to_scitype m1 = Returns c1 ->
  Dict.get check_dict (m1, c1) = Some chk1 ->
  check_passed (chk1 obj rm var) = false ->
  Dict.get check_dict (m2, c1) = None ->
  check_is obj (PyList [PyStr m1; PyStr m2]) None rm var
  = ([(m1, c1)], Raises (no_check_defined m2 c1)).
Proof.
  intros H1 Hg1 Hp1 Hg2.
  rewrite check_is_unfold. cbn [coerce_mtype forallb isinstance_str andb negb].
  cbn [strs flat_map app].
  rewrite check_loop_cons. cbn [category_of]. rewrite H1, Hg1, Hp1.
  cbv zeta. rewrite check_loop_cons. cbn [category_of]. rewrite Hg2.
  reflexivity.
Qed.

(** *** The exported operations *)

(** X14. When the mtypes before [m] and [m] itself are registered under
    the scitype in force (the one given, or the one looked up for the first
    mtype), the checkers of the mtypes before [m] reject [obj] and the
    checker of [m] accepts it, [check_is] returns what that checker
    returned, as it is, and the checkers called are those of the mtypes up
    to [m], in the order of the argument: none after [m]. *)
Theorem check_is_first_success_wins obj a sci rm var pre m post c chk :
  coerce_mtype a = Returns (pre ++ m :: post) ->
  category_of sci (hd m pre) = Returns c ->
  Forall (fun x => exists chk',
            Dict.get check_dict (x, c) = Some chk'
            /\ check_passed (chk' obj rm var) = false) pre ->
  Dict.get check_dict (m, c) = Some chk ->
  check_passed (chk obj rm var) = true ->
  check_is obj a sci rm var
  = (map (fun x => (x, c)) (pre ++ [m]), Returns (chk obj rm var)).
Proof.
  intros Ha Hcat Hpre Hget Hpass.
  rewrite check_is_unfold, Ha.
  apply check_loop_first_success; assumption.
Qed.

(** X15. With [return_metadata=True], when every mtype is registered
    under the scitype in force (the one given, or the one looked up for the
    first mtype) and its checker rejects [obj], [check_is] returns
    [(False, msg, None)]: [msg] is the message of the checker when there is
    one mtype, and the list of the checkers' messages, in order,
    otherwise. *)
Theorem check_is_all_fail_msg obj a sci var ms msgs c :
  coerce_mtype a = Returns ms ->
  (forall m, hd_error ms = Some m -> category_of sci m = Returns c) ->
  Forall2 (fun x mg => exists chk md,
             Dict.get check_dict (x, c) = Some chk
             /\ chk obj true var = (false, mg, md)) ms msgs ->
  check_is obj a sci true var
  = (map (fun x => (x, c)) ms,
     Returns (false,
              match msgs with [mg] => mg | _ => MList msgs end,
              None)).
Proof.
  intros Ha Hcat H.
  rewrite check_is_unfold, Ha.
  rewrite (check_loop_all_fail obj var c ms msgs sci [] Hcat H).
  rewrite app_nil_l, final_msg_cases. reflexivity.
Qed.

(** C5. [check_raise] returns [True] exactly when [check_is] with
    [return_metadata=True], on the same arguments, reports the object
    valid; when [check_is] reports it invalid with message [msg],
    [check_raise] raises [TypeError(msg)]; an exception of [check_is]
    passes through, and the same checkers are called. *)
Theorem check_raise_follows_check_is obj a sci var :
  (Py.result (check_raise obj a sci var) = Returns true
   <-> exists mg md,
        Py.result (check_is obj a sci true var) = Returns (true, mg, md))
  /\ (forall mg md,
        Py.result (check_is obj a sci true var) = Returns (false, mg, md) ->
        Py.result (check_raise obj a sci var) = Raises (TypeError mg))
  /\ (forall e,
        Py.result (check_is obj a sci true var) = Raises e ->
        Py.result (check_raise obj a sci var) = Raises e)
  /\ Py.trace (check_raise obj a sci var)
      = Py.trace (check_is obj a sci true var).
Proof.
  unfold check_raise.
  destruct (check_is obj a sci true var) as [t [[[v mg] md]|e]];
    unfold Py.bind, Py.result, Py.trace; cbn [fst snd].
  - destruct v; cbn [Py.pure Py.throw fst snd]; rewrite app_nil_r.
    + repeat split; try discriminate; eauto.
    + repeat split; try discriminate.
      * intros (mg' & md' & H). discriminate.
      * intros mg' md' H. inversion H. reflexivity.
  - repeat split; try discriminate.
    + intros (mg' & md' & H). discriminate.
    + intros e' H. inversion H. reflexivity.
Qed.

(** *** Every way [check_is] can raise *)

Lemma check_loop_absent rm obj var c m post :
  Dict.get check_dict (m, c) = None ->
  forall pre sci msg,
    category_of sci (hd m pre) = Returns c ->
    Forall (fun x => exists chk',
              Dict.get check_dict (x, c) = Some chk'
              /\ check_passed (chk' obj rm var) = false) pre ->
    check_loop rm obj var (pre ++ m :: post) sci msg
    = (map (fun x => (x, c)) pre, Raises (no_check_defined m c)).
Proof.
  intros Hget pre.
  induction pre as [|x pre IH]; intros sci msg Hcat Hpre; simpl in Hcat.
  - simpl app. rewrite check_loop_cons, Hcat, Hget. reflexivity.
  - inversion Hpre as [|? ? (chk' & Hg & Hf) Hpre']; subst.
    rewrite <- app_comm_cons, check_loop_cons, Hcat, Hg, Hf.
    cbv zeta. rewrite IH; [reflexivity| |assumption].
    destruct pre; reflexivity.
Qed.

Lemma check_loop_raises_how rm obj var e : forall ms sci msg,
  Py.result (check_loop rm obj var ms sci msg) = Raises e ->
  (exists m post,
      ms = m :: post /\ sci = None /\ mtype_to_scitype m = Raises e)
  \/ (exists pre m post c,
        ms = pre ++ m :: post
        /\ category_of sci (hd m pre) = Returns c
        /\ Forall (fun x => exists chk',
                     Dict.get check_dict (x, c) = Some chk'
                     /\ check_passed (chk' obj rm var) = false) pre
        /\ Dict.get check_dict (m, c) = None
        /\ e = no_check_defined m c).
Proof.
  induction ms as [|m ms IH]; intros sci msg H.
  - rewrite check_loop_nil in H. discriminate.
  - rewrite check_loop_cons in H.
    destruct (category_of sci m) as [c|e'] eqn:Hc.
    + destruct (Dict.get check_dict (m, c)) as [chk|] eqn:Hg.
      * destruct (check_passed (chk obj rm var)) eqn:Hp; [discriminate|].
        cbv zeta in H. unfold Py.result in H. cbn [snd] in H.
        apply IH in H
          as [(m' & post & _ & Hsci & _)
             |(pre & m' & post & c' & -> & Hc' & Hpre & Hg' & ->)].
        -- discriminate.
        -- cbn [category_of] in Hc'. inversion Hc'; subst c'.
           right. exists (m :: pre), m', post, c.
           repeat split; auto. constructor; eauto.
      * unfold Py.result in H. cbn [snd] in H. inversion H; subst.
        right. exists [], m, ms, c. repeat split; auto.
    + unfold Py.result in H. cbn [snd] in H. inversion H; subst.
      left. exists m, ms. destruct sci; [discriminate|]. auto.
Qed.

(** C6, with the lookup of the scitype allowed to raise.  [check_is]
    raises on a malformed [mtype] argument and on a failed lookup, and on
    nothing else:
    - an argument that is neither a string nor a list of strings raises
      [ValueError], and no checker is called;
    - when the checkers of the mtypes before [m] have rejected the object
      and the pair [(m, scitype)] is not a key of the registry, the scitype
      being the one given or the one [mtype_to_scitype] returned,
      [check_is] raises the [TypeError] of line 92;
    - when the scitype is omitted and [mtype_to_scitype] raises for the
      first mtype, [check_is] raises that exception, whatever its class,
      before any test of the registry;
    - whenever [check_is] raises, it is in one of these three ways;
    - when every pair is a key and every checker rejects the object,
      [check_is] returns, and what it returns is [False]. *)
Theorem check_is_raises_exactly :
  (forall obj a sci rm var,
      malformed a ->
      exists arg : Msg,
        check_is obj a sci rm var = ([], Raises (ValueError arg)))
  /\ (forall obj a sci rm var pre m post c,
        coerce_mtype a = Returns (pre ++ m :: post) ->
        category_of sci (hd m pre) = Returns c ->
        Forall (fun x => exists chk',
                  Dict.get check_dict (x, c) = Some chk'
                  /\ check_passed (chk' obj rm var) = false) pre ->
        Dict.get check_dict (m, c) = None ->
        check_is obj a sci rm var
        = (map (fun x => (x, c)) pre, Raises (no_check_defined m c)))
  /\ (forall obj a rm var m post e,
        coerce_mtype a = Returns (m :: post) ->
        mtype_to_scitype m = Raises e ->
        check_is obj a None rm var = ([], Raises e))
  /\ (forall obj a sci rm var e,
        Py.result (check_is obj a sci rm var) = Raises e ->
        (malformed a /\ exists arg : Msg, e = ValueError arg)
        \/ (exists m post,
              coerce_mtype a = Returns (m :: post)
              /\ sci = None /\ mtype_to_scitype m = Raises e)
        \/ (exists pre m post c,
              coerce_mtype a = Returns (pre ++ m :: post)
              /\ category_of sci (hd m pre) = Returns c
              /\ Forall (fun x => exists chk',
                           Dict.get check_dict (x, c) = Some chk'
                           /\ check_passed (chk' obj rm var) = false) pre
              /\ Dict.get check_dict (m, c) = None
              /\ e = no_check_defined m c))
  /\ (forall obj a sci rm var ms c,
        coerce_mtype a = Returns ms ->
        (forall m, hd_error ms = Some m -> category_of sci m = Returns c) ->
        Forall (fun m => exists chk,
                  Dict.get check_dict (m, c) = Some chk
                  /\ check_passed (chk obj rm var) = false) ms ->
        exists r,
          Py.result (check_is obj a sci rm var) = Returns r
          /\ check_passed r = false).
Proof.
  split; [|split; [|split; [|split]]].
  - intros obj a sci rm var Ha.
    destruct (coerce_mtype_malformed a Ha) as [arg Harg].
    exists arg. rewrite check_is_unfold, Harg. reflexivity.
  - intros obj a sci rm var pre m post c Ha Hcat Hpre Hget.
    rewrite check_is_unfold, Ha.
    apply check_loop_absent; assumption.
  - intros obj a rm var m post e Ha He.
    rewrite check_is_unfold, Ha, check_loop_cons. cbn [category_of].
    rewrite He. reflexivity.
  - intros obj a sci rm var e H.
    rewrite check_is_unfold in H.
    destruct (coerce_mtype a) as [ms|e'] eqn:Ha.
    + right.
      apply check_loop_raises_how in H
        as [(m & post & -> & Hsci & Hm)
           |(pre & m & post & c & -> & Hc & Hpre & Hg & He)].
      * left. exists m, post. auto.
      * right. exists pre, m, post, c. auto.
    + left. unfold Py.result in H. simpl in H. inversion H; subst.
      apply coerce_mtype_raises, Ha.
  - intros obj a sci rm var ms c Ha Hcat Hall.
    rewrite check_is_unfold, Ha.
    destruct (check_loop_returns rm obj var c ms sci [] Hcat)
      as (r & Hr & Hfalse).
    + eapply Forall_impl; [|exact Hall].
      intros m (chk & Hg & _). congruence.
    + exists r. split; [exact Hr|]. apply Hfalse.
      eapply Forall_impl; [|exact Hall].
      intros m (chk & Hg & Hp) chk' Hg'. congruence.
Qed.

(** C10. With the empty list of mtypes [check_is] calls no checker and
    raises nothing: it returns [False], and with [return_metadata=True]
    the triple [(False, [], None)], whose message is the empty list. *)
Theorem check_is_empty_list obj sci var :
  check_is obj (PyList []) sci false var = ([], Returns false)
  /\ check_is obj (PyList []) sci true var
     = ([], Returns (false, MList [], None)).
Proof. split; reflexivity. Qed.

(** C2, for an object that is not [None]. [mtype] checks the object
    against every mtype registered under the scitype; with more than one
    valid it raises the [TypeError] naming them, with none the [TypeError]
    of the empty message, and with exactly one it returns that mtype. *)
Theorem mtype_dispatch_not_None (o : Obj) c :
  registered_scitype c ->
  mtype_dispatch (Some o) c.
Proof.
  intros Hreg. unfold mtype_dispatch.
  rewrite (mtype_Some o c Hreg). unfold Py.trace, Py.result. cbn [fst snd].
  destruct (valid_mtypes (Some o) c) as [|F [|F' l]]; repeat split;
    cbn [length]; intros; try lia; try discriminate; try reflexivity.
  congruence.
Qed.

(** The round trip for an object that is not [None], whatever the
    checkers do with [None]. *)
Theorem mtype_roundtrip_not_None (o : Obj) F c :
  mtype_roundtrip (Some o) F c.
Proof.
  intros Hvalid Hothers.
  pose proof (valid_as_registered _ _ _ Hvalid) as Hin.
  assert (Hreg : registered_scitype c).
  { apply in_registered in Hin. unfold registered_scitype.
    change c with (snd (F, c)). apply in_map, Hin. }
  rewrite (mtype_Some o c Hreg). unfold valid_mtypes.
  rewrite (filter_unique _ F); auto using NoDup_registered.
Qed.

(** C7. Every object valid as [F] for the scitype, and as no other mtype
    registered for that scitype, has [F] returned by [mtype].  The checkers
    are imported; the checker of [F] is taken not to accept [None], as the
    checkers of data containers do not, which is what makes the statement
    hold of the object [None] as well. *)
Theorem mtype_roundtrip_every_object obj F c :
  is_valid_as None F c = false ->
  mtype_roundtrip obj F c.
Proof.
  intros HNone. destruct obj as [o|].
  - intros Hvalid Hothers.
    pose proof (valid_as_registered _ _ _ Hvalid) as Hin.
    assert (Hreg : registered_scitype c).
    { apply in_registered in Hin. unfold registered_scitype.
      change c with (snd (F, c)). apply in_map, Hin. }
    rewrite (mtype_Some o c Hreg). unfold valid_mtypes.
    rewrite (filter_unique _ F); auto using NoDup_registered.
  - intros Hvalid. rewrite HNone in Hvalid. discriminate.
Qed.

(** C8. For a registered scitype, [mtype] of [None] returns [None] and
    calls no checker. *)
Theorem mtype_None_passes_through c :
  registered_scitype c ->
  mtype None (Some c) = ([], Returns None).
Proof. intros _. reflexivity. Qed.

(** C9. The test for [None] comes before the test of the scitype:
    [mtype] of [None] returns [None] whatever [as_scitype] is, while for a
    scitype that is not registered an object other than [None] gets the
    [TypeError] of line 173. *)
Theorem mtype_None_before_scitype_check (S : option string) :
  mtype None S = ([], Returns None)
  /\ (forall (o : Obj) c,
        S = Some c ->
        ~ registered_scitype c ->
        mtype (Some o) S
        = ([], Raises (TypeError (MStr (c ++ " is not a supported scitype"))))).
Proof.
  split; [reflexivity|].
  intros o c -> Hreg. apply mtype_unregistered, Hreg.
Qed.

End Properties.

(** ** The operations on the sample registry *)

Import Example.

(** C1. [check_is(obj, ["pd.Series", "nested_univ"])] on a nested panel,
    with the scitype left out.  [mtype_to_scitype] gives "Panel" for
    "nested_univ", and under the documented behaviour its checker is found
    and accepts the object.  The code keeps the scitype "Series" it looked
    up for "pd.Series" and raises the [TypeError] of line 92 for the pair
    [("nested_univ", "Series")]. *)
Theorem check_is_scitype_sticky :
  mtype_to_scitype (Imports := sktime) "nested_univ" = Returns "Panel"
  /\ check_is (I := sktime) (Some nested_panel)
       (PyList [PyStr "pd.Series"; PyStr "nested_univ"]) None true "obj"
     = ([("pd.Series", "Series")],
        Raises (no_check_defined "nested_univ" "Series"))
  /\ check_is_documented (I := sktime) (Some nested_panel)
       (PyList [PyStr "pd.Series"; PyStr "nested_univ"]) None true "obj"
     = ([("pd.Series", "Series"); ("nested_univ", "Panel")],
        Returns (true, MNone, Some (mkMetadata true true))).
Proof. repeat split. Qed.

(** C3. [check_is(obj, ["pd.Series", "nested_univ"])] on a nested panel,
    scitype left out, boolean mode.  Checked on its own, "pd.Series" fails
    and "nested_univ" succeeds, so the first success is that of
    "nested_univ", and the loop of the docstring returns [True].  The code
    raises the [TypeError] of line 92 instead, by the defect of C1: the
    scitype "Series" looked up for "pd.Series" is kept for "nested_univ". *)
Theorem check_is_first_success_lost :
  check_is (I := sktime) (Some nested_panel) (PyStr "pd.Series") None false
    "obj"
  = ([("pd.Series", "Series")], Returns false)
  /\ check_is (I := sktime) (Some nested_panel) (PyStr "nested_univ") None
       false "obj"
     = ([("nested_univ", "Panel")], Returns true)
  /\ check_is (I := sktime) (Some nested_panel)
       (PyList [PyStr "pd.Series"; PyStr "nested_univ"]) None false "obj"
     = ([("pd.Series", "Series")],
        Raises (no_check_defined "nested_univ" "Series"))
  /\ check_is_documented (I := sktime) (Some nested_panel)
       (PyList [PyStr "pd.Series"; PyStr "nested_univ"]) None false "obj"
     = ([("pd.Series", "Series"); ("nested_univ", "Panel")], Returns true).
Proof. repeat split. Qed.

(** C4. [check_is(obj, ["pd.Series", "nested_univ"],
    return_metadata=True)] on a number, scitype left out.  Checked on its
    own each mtype fails with its message, so no mtype validates, and the
    loop of the docstring returns [(False, [msgA, msgB], None)].  The code
    raises the [TypeError] of line 92 instead, by the defect of C1. *)
Theorem check_is_all_fail_lost :
  check_is (I := sktime) (Some scalar) (PyStr "pd.Series") None true "obj"
  = ([("pd.Series", "Series")],
     Returns (false, MStr "obj must be a pandas.Series", None))
  /\ check_is (I := sktime) (Some scalar) (PyStr "nested_univ") None true
       "obj"
     = ([("nested_univ", "Panel")],
        Returns (false, MStr "obj must be a nested pd.DataFrame", None))
  /\ check_is (I := sktime) (Some scalar)
       (PyList [PyStr "pd.Series"; PyStr "nested_univ"]) None true "obj"
     = ([("pd.Series", "Series")],
        Raises (no_check_defined "nested_univ" "Series"))
  /\ check_is_documented (I := sktime) (Some scalar)
       (PyList [PyStr "pd.Series"; PyStr "nested_univ"]) None true "obj"
     = ([("pd.Series", "Series"); ("nested_univ", "Panel")],
        Returns (false,
                 MList [MStr "obj must be a pandas.Series";
                        MStr "obj must be a nested pd.DataFrame"],
                 None)).
Proof. repeat split. Qed.

(** C6 as stated fails at [check_is(obj, "nonexistent_format")]: the pair
    is a key of the registry for no scitype, yet the exception is not the
    [TypeError] of line 92 but the [ValueError] that [mtype_to_scitype]
    raises for a format it does not know, raised at line 89 before the
    registry is tested. *)
Lemma check_is_nonexistent_format_counterexample :
  (forall c, Dict.get (check_dict (I := sktime)) ("nonexistent_format", c)
             = None)
  /\ check_is (I := sktime) (Some scalar) (PyStr "nonexistent_format") None
       false "obj"
     = ([], Raises (ValueError
                      (MStr "nonexistent_format is not a supported mtype")))
  /\ ~ (exists arg : Msg,
          Py.result (check_is (I := sktime) (Some scalar)
                       (PyStr "nonexistent_format") None false "obj")
          = Raises (TypeError arg)).
Proof.
  split; [intros c; reflexivity|]. split; [reflexivity|].
  intros [arg H]. discriminate H.
Qed.

(** The three outcomes of [mtype] on objects that are not [None]. *)
Example mtype_one_valid :
  mtype (I := sktime) (Some one_column_frame) (Some "Series")
  = ([("pd.Series", "Series"); ("pd.DataFrame", "Series")],
     Returns (Some "pd.DataFrame")).
Proof. reflexivity. Qed.

Example mtype_none_valid :
  mtype (I := sktime) (Some scalar) (Some "Series")
  = ([("pd.Series", "Series"); ("pd.DataFrame", "Series")],
     Raises (TypeError (MStr ""))).
Proof. reflexivity. Qed.

Example mtype_two_valid :
  mtype (I := sktime_overlapping) (Some one_column_frame) (Some "Series")
  = ([("pd.Series", "Series"); ("pd.DataFrame", "Series")],
     Raises (TypeError (MStr
       "Error in check_is, more than one mtype identified: ['pd.Series', 'pd.DataFrame']"))).
Proof. reflexivity. Qed.

(** C2 as stated fails at [None]: "Series" is registered and [None] is
    valid as none of its mtypes, yet [mtype] raises nothing and returns
    [None]. *)
Lemma mtype_dispatch_None_counterexample :
  registered_scitype (I := sktime) "Series"
  /\ valid_mtypes (I := sktime) None "Series" = []
  /\ ~ mtype_dispatch (I := sktime) None "Series".
Proof.
  split; [vm_compute; auto|]. split; [reflexivity|].
  unfold mtype_dispatch. intros (_ & _ & Hnone & _).
  specialize (Hnone eq_refl). discriminate Hnone.
Qed.

(** On a registry unlike sktime's, with a checker that accepts [None], the
    round trip stops at the guard of lines 167-168: [None] is valid as
    "any" and as nothing else, yet [mtype] returns [None]. *)
Lemma mtype_roundtrip_lenient_registry :
  ~ mtype_roundtrip (I := sktime_lenient) None "any" "Series".
Proof.
  intros H. unfold mtype_roundtrip in H.
  specialize (H eq_refl).
  assert (Hothers : forall F',
    In F' (registered_mtypes (I := sktime_lenient) "Series") ->
    F' <> "any" ->
    is_valid_as (I := sktime_lenient) None F' "Series" = false).
  { intros F' [<-|[]] Hne. exfalso. apply Hne. reflexivity. }
  specialize (H Hothers). discriminate H.
Qed.

(** *** The statements at sample inputs *)

Lemma check_is_first_success_wins_witness :
  check_is (I := sktime) (Some multivariate_frame)
    (PyList [PyStr "pd.Series"; PyStr "pd.DataFrame"; PyStr "nested_univ"])
    None true "obj"
  = ([("pd.Series", "Series"); ("pd.DataFrame", "Series")],
     Returns (true, MNone, Some (mkMetadata false true))).
Proof.
  apply (check_is_first_success_wins (I := sktime) (Some multivariate_frame)
           _ None true "obj"
           ["pd.Series"] "pd.DataFrame" ["nested_univ"] "Series"
           (check_with is_pd_DataFrame (mkMetadata false true)
              "pandas.DataFrame")).
  - reflexivity.
  - reflexivity.
  - constructor; [|constructor].
    eexists. split; reflexivity.
  - reflexivity.
  - reflexivity.
Defined.

Lemma check_is_all_fail_msg_witness :
  check_is (I := sktime) (Some scalar)
    (PyList [PyStr "pd.Series"; PyStr "pd.DataFrame"]) None true "obj"
  = ([("pd.Series", "Series"); ("pd.DataFrame", "Series")],
     Returns (false,
              MList [MStr "obj must be a pandas.Series";
                     MStr "obj must be a pandas.DataFrame"],
              None)).
Proof.
  apply (check_is_all_fail_msg (I := sktime) (Some scalar) _ None "obj"
           ["pd.Series"; "pd.DataFrame"]
           [MStr "obj must be a pandas.Series";
            MStr "obj must be a pandas.DataFrame"] "Series").
  - reflexivity.
  - intros m H. inversion H. reflexivity.
  - repeat constructor; eexists; eexists; split; reflexivity.
Defined.

Lemma check_raise_follows_check_is_witness :
  Py.result (check_raise (I := sktime) (Some scalar) (PyStr "pd.Series")
               None "input")
  = Raises (TypeError (MStr "input must be a pandas.Series")).
Proof.
  apply (proj1 (proj2 (check_raise_follows_check_is (I := sktime)
                         (Some scalar) (PyStr "pd.Series") None "input"))
           (MStr "input must be a pandas.Series") None).
  reflexivity.
Defined.

Lemma check_is_raises_exactly_witness :
  (exists arg : Msg,
      check_is (I := sktime) (Some scalar) (PyInt 123) None false "obj"
      = ([], Raises (ValueError arg)))
  /\ check_is (I := sktime) (Some scalar)
       (PyList [PyStr "pd.Series"; PyStr "nested_univ"]) (Some "Series")
       false "obj"
     = ([("pd.Series", "Series")],
        Raises (no_check_defined "nested_univ" "Series"))
  /\ check_is (I := sktime) (Some scalar) (PyStr "nonexistent_format") None
       false "obj"
     = ([], Raises (ValueError
                      (MStr "nonexistent_format is not a supported mtype"))).
Proof.
  destruct (check_is_raises_exactly (I := sktime))
    as (Hmal & Habsent & Hlookup & _ & _).
  split; [|split].
  - apply Hmal. split; discriminate.
  - apply (Habsent (Some scalar) _ (Some "Series") false "obj"
             ["pd.Series"] "nested_univ" [] "Series").
    + reflexivity.
    + reflexivity.
    + constructor; [|constructor]. eexists. split; reflexivity.
    + reflexivity.
  - apply (Hlookup (Some scalar) _ false "obj" "nonexistent_format" []);
      reflexivity.
Defined.

Lemma mtype_dispatch_not_None_witness :
  mtype_dispatch (I := sktime) (Some univariate_series) "Series".
Proof.
  apply (mtype_dispatch_not_None (I := sktime)). vm_compute. auto.
Defined.

(** On the sample registry no checker accepts [None]. *)
Lemma sktime_checkers_reject_None (F c : string) :
  is_valid_as (I := sktime) None F c = false.
Proof.
  unfold is_valid_as. rewrite check_is_single. cbn.
  repeat match goal with
         | |- context [key_eqb ?a (F, c)] => destruct (key_eqb a (F, c))
         end;
    reflexivity.
Qed.

Lemma mtype_roundtrip_every_object_witness :
  Py.result (mtype (I := sktime) (Some univariate_series) (Some "Series"))
  = Returns (Some "pd.Series").
Proof.
  apply (mtype_roundtrip_every_object (I := sktime) (Some univariate_series)
           "pd.Series" "Series").
  - reflexivity.
  - reflexivity.
  - intros F' [<-|[<-|[]]] Hne; [exfalso; apply Hne|]; reflexivity.
Defined.

Lemma mtype_None_passes_through_witness :
  mtype (I := sktime) None (Some "Panel") = ([], Returns None).
Proof.
  apply (mtype_None_passes_through (I := sktime)). vm_compute. auto.
Defined.

Lemma mtype_None_before_scitype_check_witness :
  mtype (I := sktime) None (Some "Hierarchical") = ([], Returns None)
  /\ mtype (I := sktime) (Some scalar) (Some "Hierarchical")
     = ([], Raises (TypeError (MStr
              "Hierarchical is not a supported scitype"))).
Proof.
  destruct (mtype_None_before_scitype_check (I := sktime)
              (Some "Hierarchical")) as [HNone Hobj].
  split; [exact HNone|].
  apply (Hobj scalar "Hierarchical" eq_refl).
  vm_compute. intros [H|[H|[H|[]]]]; discriminate.
Defined.

(** ** Further properties: the pooled registry *)

Section DictUpdate.
Variable V : Type.
Implicit Types (d other : Dict.t V) (k : Key) (v : V).

Lemma key_eqb_refl k : key_eqb k k = true.
Proof. apply key_eqb_eq. reflexivity. Qed.

Lemma get_set d k v k' :
  Dict.get (Dict.set d k v) k'
  = if key_eqb k k' then Some v else Dict.get d k'.
Proof.
  induction d as [|[k0 v0] d IH]; simpl; [reflexivity|].
  destruct (key_eqb k0 k) eqn:E; simpl.
  - apply key_eqb_eq in E. subst k0.
    destruct (key_eqb k k'); reflexivity.
  - rewrite IH. destruct (key_eqb k0 k') eqn:E'; [|reflexivity].
    apply key_eqb_eq in E'. subst k0.
    destruct (key_eqb k k') eqn:E2; [|reflexivity].
    apply key_eqb_eq in E2. subst k'. rewrite key_eqb_refl in E. discriminate.
Qed.

Lemma get_update other : forall d k,
  Dict.get (Dict.update d other) k
  = match Dict.get (Dict.update Dict.empty other) k with
    | Some v => Some v
    | None => Dict.get d k
    end.
Proof.
  unfold Dict.update.
  induction other as [|[k0 v0] other IH]; intros d k; [reflexivity|].
  cbn [fold_left fst snd]. rewrite IH.
  rewrite (IH (Dict.set Dict.empty k0 v0)). rewrite get_set.
  cbn [Dict.set Dict.empty Dict.get].
  destruct (Dict.get (fold_left _ other Dict.empty) k); [reflexivity|].
  destruct (key_eqb k0 k); reflexivity.
Qed.

Lemma in_keys_set_iff d k v k0 :
  In k0 (Dict.keys (Dict.set d k v)) <-> k0 = k \/ In k0 (Dict.keys d).
Proof.
  split; [apply in_keys_set|].
  induction d as [|[k' v'] d IH]; simpl.
  - intros [->|[]]. auto.
  - destruct (key_eqb k' k) eqn:E; simpl.
    + apply key_eqb_eq in E. subst k'. intuition.
    + intuition.
Qed.

Lemma in_keys_update other : forall d k,
  In k (Dict.keys (Dict.update d other))
  <-> In k (Dict.keys d) \/ In k (Dict.keys other).
Proof.
  unfold Dict.update.
  induction other as [|[k0 v0] other IH]; intros d k; cbn [fold_left fst snd].
  - simpl. tauto.
  - rewrite IH, in_keys_set_iff. simpl. intuition.
Qed.

End DictUpdate.

Section Registry.
Context {I : Imports}.

(** X1. Looking a key up in the pooled registry gives the checker of the
    Panel dictionary when that one has the key, and the checker of the
    Series dictionary otherwise: on a key of both, the dictionary merged
    last wins. *)
Theorem check_dict_lookup (k : Key) :
  Dict.get check_dict k
  = match Dict.get (Dict.update Dict.empty check_dict_Panel) k with
    | Some chk => Some chk
    | None => Dict.get (Dict.update Dict.empty check_dict_Series) k
    end.
Proof. unfold check_dict. apply get_update. Qed.

(** X2. The keys of the pooled registry are the keys of the two
    dictionaries, and no key occurs twice. *)
Theorem check_dict_keys :
  NoDup (Dict.keys check_dict)
  /\ forall k, In k (Dict.keys check_dict)
               <-> In k (Dict.keys check_dict_Series)
                   \/ In k (Dict.keys check_dict_Panel).
Proof.
  split.
  - unfold check_dict. apply NoDup_keys_update, NoDup_keys_update. constructor.
  - intros k. unfold check_dict. rewrite !in_keys_update. simpl. tauto.
Qed.

End Registry.

(** ** Further properties: [check_is] *)

Section CheckIsMore.
Context {I : Imports}.
Implicit Types (obj : option Obj) (rm : bool) (var : string)
  (sci : option string) (msg : list Msg) (m c : string).

Lemma check_passed_ret rm (mg : Msg) :
  check_passed (ret false mg None rm) = false.
Proof. destruct rm; reflexivity. Qed.

(** *** A valid report comes from a checker *)

Lemma check_loop_valid rm obj var : forall ms sci msg t r,
  check_loop rm obj var ms sci msg = (t, Returns r) ->
  check_passed r = true ->
  exists pre m post c chk,
    ms = pre ++ m :: post
    /\ category_of sci (hd m pre) = Returns c
    /\ Forall (fun x => exists chk',
                 Dict.get check_dict (x, c) = Some chk'
                 /\ check_passed (chk' obj rm var) = false) pre
    /\ Dict.get check_dict (m, c) = Some chk
    /\ r = chk obj rm var
    /\ t = map (fun x => (x, c)) (pre ++ [m]).
Proof.
  induction ms as [|m ms IH]; intros sci msg t r H Hr.
  - rewrite check_loop_nil in H. inversion H; subst.
    rewrite check_passed_ret in Hr. discriminate.
  - rewrite check_loop_cons in H.
    destruct (category_of sci m) as [c|e] eqn:Hc; [|discriminate].
    destruct (Dict.get check_dict (m, c)) as [chk|] eqn:Hg; [|discriminate].
    destruct (check_passed (chk obj rm var)) eqn:Hp.
    + inversion H; subst.
      exists [], m, ms, c, chk. repeat split; auto.
    + cbv zeta in H.
      destruct (check_loop rm obj var ms (Some c) (append_msg (chk obj rm var) msg))
        as [t' o'] eqn:E.
      cbn [fst snd] in H. inversion H; subst.
      destruct (IH _ _ _ _ E Hr)
        as (pre & m' & post & c' & chk' & -> & Hc' & Hpre & Hg' & -> & ->).
      cbn [category_of] in Hc'. inversion Hc'; subst c'.
      exists (m :: pre), m', post, c, chk'. repeat split; auto.
      constructor; eauto.
Qed.

(** X3. When [check_is] reports the object valid, what it returns is the
    return value of the checker of one of the listed mtypes, the checkers of
    the mtypes before it were called and rejected the object, and no other
    checker was called. *)
Theorem check_is_valid_from_checker obj a sci rm var ms t r :
  coerce_mtype a = Returns ms ->
  check_is obj a sci rm var = (t, Returns r) ->
  check_passed r = true ->
  exists pre m post c chk,
    ms = pre ++ m :: post
    /\ category_of sci (hd m pre) = Returns c
    /\ Forall (fun x => exists chk',
                 Dict.get check_dict (x, c) = Some chk'
                 /\ check_passed (chk' obj rm var) = false) pre
    /\ Dict.get check_dict (m, c) = Some chk
    /\ r = chk obj rm var
    /\ t = map (fun x => (x, c)) (pre ++ [m]).
Proof.
  intros Ha H Hr. rewrite check_is_unfold, Ha in H.
  eapply check_loop_valid; eassumption.
Qed.

(** *** An invalid report comes from line 109 *)

Lemma check_loop_invalid rm obj var : forall ms sci msg t r,
  check_loop rm obj var ms sci msg = (t, Returns r) ->
  check_passed r = false ->
  (exists mg, r = ret false mg None rm)
  /\ exists c,
      (forall m, hd_error ms = Some m -> category_of sci m = Returns c)
      /\ t = map (fun m => (m, c)) ms
      /\ Forall (fun m => exists chk,
                   Dict.get check_dict (m, c) = Some chk
                   /\ check_passed (chk obj rm var) = false) ms.
Proof.
  induction ms as [|m ms IH]; intros sci msg t r H Hr.
  - rewrite check_loop_nil in H. inversion H; subst.
    split; [eauto|]. exists "". repeat split; [discriminate|constructor].
  - rewrite check_loop_cons in H.
    destruct (category_of sci m) as [c|e] eqn:Hc; [|discriminate].
    destruct (Dict.get check_dict (m, c)) as [chk|] eqn:Hg; [|discriminate].
    destruct (check_passed (chk obj rm var)) eqn:Hp.
    + inversion H; subst. congruence.
    + cbv zeta in H.
      destruct (check_loop rm obj var ms (Some c) (append_msg (chk obj rm var) msg))
        as [t' o'] eqn:E.
      cbn [fst snd] in H. inversion H; subst.
      destruct (IH _ _ _ _ E Hr) as (Hret & c' & Hc' & -> & Hall).
      split; [exact Hret|].
      exists c. split; [|split].
      * intros m' Hm'. inversion Hm'; subst. exact Hc.
      * destruct ms as [|m' ms]; [reflexivity|].
        specialize (Hc' m' eq_refl). cbn [category_of] in Hc'.
        inversion Hc'; subst. reflexivity.
      * constructor; [eauto|].
        destruct ms as [|m' ms]; [constructor|].
        specialize (Hc' m' eq_refl). cbn [category_of] in Hc'.
        inversion Hc'; subst. exact Hall.
Qed.

(** X4. When [check_is] reports the object invalid, the report was built
    by line 109, so its metadata is [None]; the checker of every listed
    mtype was called, in order, and each of them rejected the object. *)
Theorem check_is_invalid_all_rejected obj a sci rm var ms t r :
  coerce_mtype a = Returns ms ->
  check_is obj a sci rm var = (t, Returns r) ->
  check_passed r = false ->
  (exists mg, r = ret false mg None rm)
  /\ exists c,
      (forall m, hd_error ms = Some m -> category_of sci m = Returns c)
      /\ t = map (fun m => (m, c)) ms
      /\ Forall (fun m => exists chk,
                   Dict.get check_dict (m, c) = Some chk
                   /\ check_passed (chk obj rm var) = false) ms.
Proof.
  intros Ha H Hr. rewrite check_is_unfold, Ha in H.
  eapply check_loop_invalid; eassumption.
Qed.

(** *** The calls made *)

Lemma check_loop_trace_given rm obj var c : forall ms msg,
  exists n,
    Py.trace (check_loop rm obj var ms (Some c) msg)
    = map (fun m => (m, c)) (firstn n ms).
Proof.
  induction ms as [|m ms IH]; intros msg.
  - exists 0. reflexivity.
  - rewrite check_loop_cons. cbn [category_of].
    destruct (Dict.get check_dict (m, c)) as [chk|]; [|exists 0; reflexivity].
    destruct (check_passed (chk obj rm var)).
    + exists 1. reflexivity.
    + destruct (IH (append_msg (chk obj rm var) msg)) as [n Hn].
      exists (S n). cbv zeta. unfold Py.trace in *. cbn [fst firstn map].
      rewrite Hn. reflexivity.
Qed.

(** X5. In one call of [check_is] the checkers are called for an initial
    part of the list of mtypes, in the order of the list, once each, and all
    under one and the same scitype. *)
Theorem check_is_trace_prefix obj a sci rm var ms :
  coerce_mtype a = Returns ms ->
  exists n c,
    Py.trace (check_is obj a sci rm var)
    = map (fun m => (m, c)) (firstn n ms).
Proof.
  intros Ha. rewrite check_is_unfold, Ha.
  destruct ms as [|m ms]; [exists 0, ""; reflexivity|].
  rewrite check_loop_cons.
  destruct (category_of sci m) as [c|e]; [|exists 0, ""; reflexivity].
  destruct (Dict.get check_dict (m, c)) as [chk|]; [|exists 0, c; reflexivity].
  destruct (check_passed (chk obj rm var)).
  - exists 1, c. reflexivity.
  - destruct (check_loop_trace_given rm obj var c ms
                (append_msg (chk obj rm var) [])) as [n Hn].
    exists (S n), c. cbv zeta. unfold Py.trace in *. cbn [fst firstn map].
    rewrite Hn. reflexivity.
Qed.

End CheckIsMore.

(** ** Further properties: lists of mtypes *)

Section ListsOfMtypes.
Context {I : Imports}.
Implicit Types (obj : option Obj) (rm : bool) (var : string)
  (sci : option string) (msg : list Msg) (m c : string).

Lemma check_loop_bool obj c : forall ms msg,
  Forall (fun m => In m (registered_mtypes c)) ms ->
  Py.result (check_loop false obj "obj" ms (Some c) msg)
  = Returns (existsb (fun m => is_valid_as obj m c) ms).
Proof.
  induction ms as [|m ms IH]; intros msg Hreg; [reflexivity|].
  inversion Hreg as [|? ? Hm Hms]; subst.
  destruct (in_keys_get _ check_dict (m, c)) as [chk Hchk].
  { apply in_registered, Hm. }
  rewrite check_loop_cons. cbn [category_of existsb].
  rewrite Hchk, (valid_as_checker _ _ _ _ Hchk). cbn [check_passed].
  destruct (chk obj false "obj") eqn:E; [reflexivity|].
  cbv zeta. unfold Py.result in *. cbn [snd orb]. apply IH, Hms.
Qed.

(** X6. With the scitype given and every listed mtype registered for it,
    [check_is] in boolean mode raises nothing, and returns [True] exactly
    when [check_is] returns [True] for one of the mtypes on its own. *)
Theorem check_is_list_is_disjunction obj c (ms : list string) :
  Forall (fun m => In m (registered_mtypes c)) ms ->
  Py.result (check_is obj (PyList (map PyStr ms)) (Some c) false "obj")
  = Returns (existsb (fun m => is_valid_as obj m c) ms).
Proof.
  intros Hreg. rewrite check_is_unfold, coerce_mtype_list.
  apply check_loop_bool, Hreg.
Qed.

Lemma check_loop_app rm obj var (more : list string) : forall ms sci msg,
  match Py.result (check_loop rm obj var ms sci msg) with
  | Raises _ => True
  | Returns r => check_passed r = true
  end ->
  check_loop rm obj var (ms ++ more) sci msg
  = check_loop rm obj var ms sci msg.
Proof.
  induction ms as [|m ms IH]; intros sci msg H.
  - rewrite check_loop_nil in H. unfold Py.result in H. cbn [snd] in H.
    rewrite check_passed_ret in H. discriminate.
  - rewrite <- app_comm_cons, !check_loop_cons.
    rewrite check_loop_cons in H.
    destruct (category_of sci m) as [c|e]; [|reflexivity].
    destruct (Dict.get check_dict (m, c)) as [chk|]; [|reflexivity].
    destruct (check_passed (chk obj rm var)); [reflexivity|].
    cbv zeta in *. rewrite IH; [reflexivity|exact H].
Qed.

(** X7. Once [check_is] on a list of mtypes has reported the object valid,
    or has raised, mtypes added at the end of the list change nothing: the
    same checkers are called and the outcome is the same. *)
Theorem check_is_append_after_settled obj sci rm var (ms more : list string) :
  match Py.result (check_is obj (PyList (map PyStr ms)) sci rm var) with
  | Raises _ => True
  | Returns r => check_passed r = true
  end ->
  check_is obj (PyList (map PyStr (ms ++ more))) sci rm var
  = check_is obj (PyList (map PyStr ms)) sci rm var.
Proof.
  rewrite !check_is_unfold, !coerce_mtype_list. apply check_loop_app.
Qed.

(** *** The loop of the code and the loop of the docstring *)

Lemma check_loop_first_lookup rm obj var c ms msg :
  Forall (fun m => mtype_to_scitype m = Returns c) ms ->
  check_loop rm obj var ms None msg = check_loop rm obj var ms (Some c) msg.
Proof.
  intros H. destruct ms as [|m ms]; [reflexivity|].
  inversion H; subst. rewrite !check_loop_cons. cbn [category_of].
  rewrite H2. reflexivity.
Qed.

Lemma check_loop_documented_same rm obj var c : forall ms msg,
  Forall (fun m => mtype_to_scitype m = Returns c) ms ->
  check_loop_documented rm obj var ms None msg
  = check_loop rm obj var ms (Some c) msg.
Proof.
  induction ms as [|m ms IH]; intros msg H; [reflexivity|].
  inversion H as [|? ? Hm Hms]; subst.
  cbn [check_loop check_loop_documented category_of].
  rewrite Hm, !bind_lift_Returns.
  destruct (Dict.get check_dict (m, c)) as [chk|]; [|reflexivity].
  rewrite !bind_invoke.
  destruct (check_passed (chk obj rm var)); [reflexivity|].
  rewrite IH by exact Hms. reflexivity.
Qed.

(** X8. When [mtype_to_scitype] gives the same scitype for every listed
    mtype, [check_is] with the scitype left out does what its docstring
    describes: looking the scitype up once, for the first mtype, is then the
    same as looking it up for each. *)
Theorem check_is_documented_same_scitype obj a rm var ms c :
  coerce_mtype a = Returns ms ->
  Forall (fun m => mtype_to_scitype m = Returns c) ms ->
  check_is obj a None rm var = check_is_documented obj a None rm var.
Proof.
  intros Ha H. rewrite check_is_unfold. unfold check_is_documented.
  rewrite Ha, bind_lift_Returns.
  rewrite (check_loop_first_lookup _ _ _ c) by exact H.
  rewrite (check_loop_documented_same _ _ _ c) by exact H. reflexivity.
Qed.

(** *** The two return modes *)

Lemma check_loop_modes obj var :
  (forall k chk, Dict.get check_dict k = Some chk ->
                 check_passed (chk obj true var) = chk obj false var) ->
  forall ms sci msg msg',
    Py.trace (check_loop false obj var ms sci msg')
    = Py.trace (check_loop true obj var ms sci msg)
    /\ Py.result (check_loop false obj var ms sci msg')
       = match Py.result (check_loop true obj var ms sci msg) with
         | Returns r => Returns (check_passed r)
         | Raises e => Raises e
         end.
Proof.
  intros Hmodes.
  induction ms as [|m ms IH]; intros sci msg msg'; [split; reflexivity|].
  rewrite !check_loop_cons.
  destruct (category_of sci m) as [c|e]; [|split; reflexivity].
  destruct (Dict.get check_dict (m, c)) as [chk|] eqn:Hg; [|split; reflexivity].
  pose proof (Hmodes _ _ Hg) as Hchk.
  change (check_passed (chk obj false var)) with (chk obj false var).
  rewrite <- Hchk.
  destruct (check_passed (chk obj true var)) eqn:Hp.
  - unfold Py.trace, Py.result. cbn [fst snd]. rewrite Hp.
    split; reflexivity.
  - cbv zeta. unfold Py.trace, Py.result in *. cbn [fst snd].
    destruct (IH (Some c) (append_msg (chk obj true var) msg) msg')
      as [Ht Hr].
    cbn [append_msg] in *. rewrite Ht, Hr. split; reflexivity.
Qed.

(** X9. When every registered checker gives, for the object, the same
    verdict with and without [return_metadata], so does [check_is]: both
    modes call the same checkers, raise the same exception, and the boolean
    returned without metadata is the first component of the triple returned
    with it. *)
Theorem check_is_modes_agree obj a sci var :
  (forall k chk, Dict.get check_dict k = Some chk ->
                 check_passed (chk obj true var) = chk obj false var) ->
  Py.trace (check_is obj a sci false var)
  = Py.trace (check_is obj a sci true var)
  /\ Py.result (check_is obj a sci false var)
     = match Py.result (check_is obj a sci true var) with
       | Returns r => Returns (check_passed r)
       | Raises e => Raises e
       end.
Proof.
  intros Hmodes. rewrite !check_is_unfold.
  destruct (coerce_mtype a) as [ms|e]; [|split; reflexivity].
  apply check_loop_modes, Hmodes.
Qed.

End ListsOfMtypes.

(** ** Further properties: [check_raise] and [mtype] *)

Section RaiseAndInfer.
Context {I : Imports}.
Implicit Types (obj : option Obj) (var : string) (sci : option string).

(** X10. [check_raise] never returns [False]: when it returns, it returns
    [True], and then the checker of one of the listed mtypes, called with
    [return_metadata=True], accepted the object. *)
Theorem check_raise_returns_only_True obj a sci var (b : bool) :
  Py.result (check_raise obj a sci var) = Returns b ->
  b = true
  /\ exists ms m c chk mg md,
      coerce_mtype a = Returns ms /\ In m ms
      /\ Dict.get check_dict (m, c) = Some chk
      /\ chk obj true var = (true, mg, md).
Proof.
  unfold check_raise. intros H.
  destruct (check_is obj a sci true var) as [t [[[v mg] md]|e]] eqn:E;
    [|discriminate].
  unfold Py.bind, Py.result in H. cbn [fst snd] in H.
  destruct v; [|discriminate].
  cbn [Py.pure snd] in H. inversion H; subst b. split; [reflexivity|].
  rewrite check_is_unfold in E.
  destruct (coerce_mtype a) as [ms|e] eqn:Ha; [|discriminate].
  destruct (check_loop_valid true obj var ms sci [] t (true, mg, md) E eq_refl)
    as (pre & m & post & c & chk & -> & _ & _ & Hg & Hr & _).
  exists (pre ++ m :: post), m, c, chk, mg, md.
  repeat split; auto. apply in_or_app. right. left. reflexivity.
Qed.

(** X11. An mtype returned by [mtype] is registered for the scitype,
    [check_is] holds of the object for it, and for no other mtype
    registered for the scitype. *)
Theorem mtype_returns_sound obj (S : option string) (F : string) :
  Py.result (mtype obj S) = Returns (Some F) ->
  exists c,
    S = Some c
    /\ In F (registered_mtypes c)
    /\ is_valid_as obj F c = true
    /\ forall F', In F' (registered_mtypes c) -> F' <> F ->
                  is_valid_as obj F' c = false.
Proof.
  intros H.
  destruct obj as [o|]; [|discriminate].
  destruct S as [c|]; [|discriminate].
  destruct (in_dec string_dec c (map snd (Dict.keys check_dict)))
    as [Hreg|Hreg].
  - rewrite (mtype_Some o c Hreg) in H. unfold Py.result in H.
    cbn [snd] in H.
    destruct (valid_mtypes (Some o) c) as [|F0 [|F1 l]] eqn:E;
      try discriminate.
    inversion H; subst F0. exists c. split; [reflexivity|].
    unfold valid_mtypes in E.
    assert (HF : In F (filter (fun m => is_valid_as (Some o) m c)
                         (registered_mtypes c))).
    { rewrite E. left. reflexivity. }
    apply filter_In in HF as [Hin Hv]. repeat split; auto.
    intros F' Hin' Hne.
    destruct (is_valid_as (Some o) F' c) eqn:Hv'; [|reflexivity].
    assert (HF' : In F' (filter (fun m => is_valid_as (Some o) m c)
                           (registered_mtypes c))).
    { apply filter_In. split; assumption. }
    rewrite E in HF'. destruct HF' as [->|[]]. contradiction Hne. reflexivity.
  - rewrite (mtype_unregistered o c Hreg) in H. discriminate.
Qed.

(** X12. Whatever [mtype] raises is a [TypeError]: neither the indexing
    of line 187 nor the calls of [check_is] of line 177 can fail.  And
    [mtype] returns [None] for the object [None] only. *)
Theorem mtype_outcomes obj (S : option string) :
  (forall e, Py.result (mtype obj S) = Raises e ->
             exists arg : Msg, e = TypeError arg)
  /\ (Py.result (mtype obj S) = Returns None <-> obj = None).
Proof.
  destruct obj as [o|].
  - destruct S as [c|].
    + destruct (in_dec string_dec c (map snd (Dict.keys check_dict)))
        as [Hreg|Hreg].
      * rewrite (mtype_Some o c Hreg). unfold Py.result. cbn [snd].
        destruct (valid_mtypes (Some o) c) as [|F0 [|F1 l]]; split;
          try (intros e H; inversion H; eauto);
          split; discriminate.
      * rewrite (mtype_unregistered o c Hreg). unfold Py.result. cbn [snd].
        split; [intros e H; inversion H; eauto|split; discriminate].
    + split; [intros e H; inversion H; eauto|split; discriminate].
  - split; [discriminate|split; reflexivity].
Qed.

End RaiseAndInfer.

(** ** The further properties at sample inputs *)

Lemma check_is_valid_from_checker_witness :
  exists m c chk,
    In m ["pd.Series"; "pd.DataFrame"; "nested_univ"]
    /\ Dict.get (check_dict (I := sktime)) (m, c) = Some chk
    /\ chk (Some multivariate_frame) true "obj"
       = (true, MNone, Some (mkMetadata false true)).
Proof.
  destruct (check_is_valid_from_checker (I := sktime)
              (Some multivariate_frame)
              (PyList [PyStr "pd.Series"; PyStr "pd.DataFrame";
                       PyStr "nested_univ"])
              None true "obj"
              ["pd.Series"; "pd.DataFrame"; "nested_univ"]
              [("pd.Series", "Series"); ("pd.DataFrame", "Series")]
              (true, MNone, Some (mkMetadata false true))
              eq_refl eq_refl eq_refl)
    as (pre & m & post & c & chk & Hms & _ & _ & Hg & Hr & _).
  exists m, c, chk. repeat split; [|exact Hg|symmetry; exact Hr].
  rewrite Hms. apply in_or_app. right. left. reflexivity.
Defined.

Lemma check_is_invalid_all_rejected_witness :
  exists c,
    [("pd.Series", "Series"); ("pd.DataFrame", "Series")]
    = map (fun m => (m, c)) ["pd.Series"; "pd.DataFrame"].
Proof.
  destruct (check_is_invalid_all_rejected (I := sktime) (Some scalar)
              (PyList [PyStr "pd.Series"; PyStr "pd.DataFrame"])
              None true "obj" ["pd.Series"; "pd.DataFrame"]
              [("pd.Series", "Series"); ("pd.DataFrame", "Series")]
              (false,
               MList [MStr "obj must be a pandas.Series";
                      MStr "obj must be a pandas.DataFrame"],
               None)
              eq_refl eq_refl eq_refl)
    as (_ & c & _ & Ht & _).
  exists c. exact Ht.
Defined.

Lemma check_is_trace_prefix_witness :
  exists n c,
    Py.trace (check_is (I := sktime) (Some one_column_frame)
                (PyList [PyStr "pd.Series"; PyStr "pd.DataFrame";
                         PyStr "nested_univ"]) None false "obj")
    = map (fun m => (m, c))
        (firstn n ["pd.Series"; "pd.DataFrame"; "nested_univ"]).
Proof.
  apply (check_is_trace_prefix (I := sktime)). reflexivity.
Defined.

Lemma check_is_list_is_disjunction_witness :
  Py.result (check_is (I := sktime) (Some one_column_frame)
               (PyList (map PyStr ["pd.Series"; "pd.DataFrame"]))
               (Some "Series") false "obj")
  = Returns (existsb (fun m => is_valid_as (I := sktime)
                                 (Some one_column_frame) m "Series")
               ["pd.Series"; "pd.DataFrame"]).
Proof.
  apply (check_is_list_is_disjunction (I := sktime)).
  constructor; [vm_compute; auto|].
  constructor; [vm_compute; auto|constructor].
Defined.

Lemma check_is_append_after_settled_witness :
  check_is (I := sktime) (Some multivariate_frame)
    (PyList (map PyStr (["pd.DataFrame"] ++ ["nested_univ"]))) None false "obj"
  = check_is (I := sktime) (Some multivariate_frame)
      (PyList (map PyStr ["pd.DataFrame"])) None false "obj".
Proof.
  apply (check_is_append_after_settled (I := sktime)). reflexivity.
Defined.

Lemma check_is_documented_same_scitype_witness :
  check_is (I := sktime) (Some one_column_frame)
    (PyList [PyStr "pd.Series"; PyStr "pd.DataFrame"]) None true "obj"
  = check_is_documented (I := sktime) (Some one_column_frame)
      (PyList [PyStr "pd.Series"; PyStr "pd.DataFrame"]) None true "obj".
Proof.
  apply (check_is_documented_same_scitype (I := sktime) _ _ _ _
           ["pd.Series"; "pd.DataFrame"] "Series").
  - reflexivity.
  - repeat constructor.
Defined.

Lemma check_is_modes_agree_witness :
  Py.trace (check_is (I := sktime) (Some scalar)
              (PyList [PyStr "pd.Series"; PyStr "pd.DataFrame"]) None false
              "obj")
  = Py.trace (check_is (I := sktime) (Some scalar)
                (PyList [PyStr "pd.Series"; PyStr "pd.DataFrame"]) None true
                "obj").
Proof.
  apply (check_is_modes_agree (I := sktime)).
  intros k chk H. cbn in H.
  repeat match type of H with
         | context [key_eqb ?a k] => destruct (key_eqb a k)
         end;
    inversion H; reflexivity.
Defined.

Lemma check_raise_returns_only_True_witness :
  true = true
  /\ exists ms m c chk mg md,
      coerce_mtype (PyStr "pd.Series") = Returns ms /\ In m ms
      /\ Dict.get (check_dict (I := sktime)) (m, c) = Some chk
      /\ chk (Some univariate_series) true "input" = (true, mg, md).
Proof.
  apply (check_raise_returns_only_True (I := sktime)
           (Some univariate_series) (PyStr "pd.Series") None "input" true).
  reflexivity.
Defined.

Lemma mtype_returns_sound_witness :
  exists c,
    Some "Series" = Some c
    /\ In "pd.DataFrame" (registered_mtypes (I := sktime) c)
    /\ is_valid_as (I := sktime) (Some one_column_frame) "pd.DataFrame" c
       = true
    /\ forall F', In F' (registered_mtypes (I := sktime) c) ->
                  F' <> "pd.DataFrame" ->
                  is_valid_as (I := sktime) (Some one_column_frame) F' c
                  = false.
Proof.
  apply (mtype_returns_sound (I := sktime) (Some one_column_frame)
           (Some "Series") "pd.DataFrame").
  reflexivity.
Defined.

Lemma mtype_outcomes_witness :
  exists arg : Msg, TypeError (MStr "") = TypeError arg.
Proof.
  apply (proj1 (mtype_outcomes (I := sktime) (Some scalar) (Some "Series"))).
  reflexivity.
Defined.

(** ** The merged dictionaries seen through [check_is] *)

(** X13. For a key of the Panel dictionary, [check_is] on that mtype and
    scitype calls the Panel checker and returns its verdict, whether or not
    the Series dictionary has a checker under the same key. *)
Theorem check_is_uses_Panel_checker {I : Imports} (obj : option Obj)
  (m c var : string) (chk : checker Obj) :
  Dict.get (Dict.update Dict.empty check_dict_Panel) (m, c) = Some chk ->
  check_is obj (PyStr m) (Some c) false var
  = ([(m, c)], Returns (chk obj false var)).
Proof.
  intros H. rewrite check_is_single.
  unfold check_dict. rewrite get_update, H. reflexivity.
Qed.

Lemma check_is_uses_Panel_checker_witness :
  check_is (I := sktime) (Some nested_panel) (PyStr "nested_univ")
    (Some "Panel") false "obj"
  = ([("nested_univ", "Panel")], Returns true).
Proof.
  apply (check_is_uses_Panel_checker (I := sktime) (Some nested_panel)
           "nested_univ" "Panel" "obj"
           (check_with is_nested_univ (mkMetadata true true)
              "nested pd.DataFrame")).
  reflexivity.
Defined.
